(** * Timeweb AI plugin for Obsidian: the transform-selection command

    A shallow embedding of [src/main.ts].  The plugin is glue between three
    host capabilities (the editor, the notification area, the network) and
    one modal dialog.  The command callback is embedded as a program in a
    small monad that records, in order, every call the callback makes to the
    host; what the host answers (the active view, what the user does in the
    modal, how the request settles) is an explicit input. *)

From Stdlib Require Import String Ascii List NArith QArith.
From Stdlib Require Import Decimal DecimalString DecimalPos DecimalN NArithRing.
Import ListNotations.
Local Open Scope list_scope.
Local Open Scope string_scope.
Set Warnings "-register-all".

(** ** JavaScript values *)

(** Strings are kept as byte strings holding the UTF-8 encoding of the
    source's text; concatenation, equality and emptiness are those of the
    JavaScript string. *)

(** The line feed written [\n] in the source's template literal. *)
Definition LF : string := String "010"%char EmptyString.

(** [ToBoolean] on a string: only the empty string is falsy. *)
Definition truthy (s : string) : bool :=
  match s with
  | EmptyString => false
  | String _ _ => true
  end.

(** [String(n)] for a non-negative integer below 10^21, which is how a
    template literal prints an HTTP status. *)
Definition Number_toString (n : N) : string :=
  NilZero.string_of_uint (N.to_uint n).

(** What [response.json()] can resolve to.  An object is its list of own
    properties (keys distinct). *)
Inductive JSON : Type :=
| JNull
| JBoolean (b : bool)
| JNumber (x : Q)
| JString (s : string)
| JArray (items : list JSON)
| JObject (properties : list (string * JSON)).

Fixpoint own_property (key : string) (properties : list (string * JSON))
  : option JSON :=
  match properties with
  | [] => None
  | (k, v) :: rest => if String.eqb k key then Some v else own_property key rest
  end.

(** [data?.key], with [None] for [undefined].  [data] is never [undefined]
    here; on [null] the chain stops, and a primitive or an array has no
    property named [key] (the only key read is [message]). *)
Definition optional_member (data : JSON) (key : string) : option JSON :=
  match data with
  | JObject properties => own_property key properties
  | _ => None
  end.

(** [a ?? b], with [None] for [undefined] *)
Definition nullish_coalesce (a : option JSON) (b : JSON) : JSON :=
  match a with
  | None | Some JNull => b
  | Some v => v
  end.

(** The request body: the text [JSON.stringify] makes of [value]. *)
Inductive BodyInit : Type :=
| JSON_stringify (value : JSON).

Record JSError : Type := { error_name : string; error_message : string }.

(** How an awaited promise settles. *)
Inductive Settled (A : Type) : Type :=
| Fulfilled (a : A)
| Rejected (err : JSError).
Arguments Fulfilled {A} a.
Arguments Rejected {A} err.

(** ** The host interface *)

Record EditorPosition : Type := { line : nat; ch : nat }.

(** The editor as the callback reads it on entry. *)
Record Editor : Type := {
  getCursor_from : EditorPosition;
  getCursor_to : EditorPosition;
  getSelection : string
}.

Record MarkdownView : Type := { editor : Editor }.

Record RequestInit : Type := {
  method : string;
  headers : list (string * string);
  body : BodyInit;
  signal : nat         (* the [AbortController] whose signal is attached *)
}.

Record Response : Type := {
  ok : bool;
  status : N;
  json : Settled JSON
}.

(** Every call of the callback that acts on the host, in program order.
    Notices, abort controllers and timers are named by their order of
    creation. *)
Inductive Effect : Type :=
| NoticeNew (notice : nat) (text : string) (duration : option N)
| NoticeHide (notice : nat)
| ModalOpen (placeholder : string)
| EditorSetSelection (anchor head : EditorPosition)
| EditorReplaceSelection (replacement : JSON)
| AbortControllerNew (controller : nat)
| SetTimeout (timer : nat) (aborts : nat) (ms : N)
| ClearTimeout (timer : nat)
| Fetch (url : string) (init : RequestInit)
| ConsoleError (err : JSError).

Definition is_notice (e : Effect) : bool :=
  match e with NoticeNew _ _ _ => true | _ => false end.
Definition is_fetch (e : Effect) : bool :=
  match e with Fetch _ _ => true | _ => false end.
Definition is_controller (e : Effect) : bool :=
  match e with AbortControllerNew _ => true | _ => false end.
Definition is_timer (e : Effect) : bool :=
  match e with SetTimeout _ _ _ => true | _ => false end.
Definition is_replace (e : Effect) : bool :=
  match e with EditorReplaceSelection _ => true | _ => false end.
Definition is_editor_write (e : Effect) : bool :=
  match e with
  | EditorSetSelection _ _ | EditorReplaceSelection _ => true
  | _ => false
  end.

(** ** The instruction modal *)

Module InstructionModal.

(** The two fields of the class, the value of the textarea that [onOpen]
    creates, and whether the host shows the modal. *)
Record t : Type := {
  result : option string;
  placeholder : string;
  textarea_value : string;
  isOpen : bool
}.

(** The constructor: [result] starts as [null]. *)
Definition new (placeholder : string) : t :=
  {| result := None; placeholder := placeholder;
     textarea_value := ""; isOpen := false |}.

(** [open()]: the host shows the modal and runs [onOpen], which builds a
    fresh, empty textarea. *)
Definition open (this : t) : t :=
  {| result := result this; placeholder := placeholder this;
     textarea_value := ""; isOpen := true |}.

(** [close()]: the host takes the modal down and calls [onClose]. *)
Definition close (this : t) : t :=
  {| result := result this; placeholder := placeholder this;
     textarea_value := textarea_value this; isOpen := false |}.

Definition set_result (r : option string) (this : t) : t :=
  {| result := r; placeholder := placeholder this;
     textarea_value := textarea_value this; isOpen := isOpen this |}.

Record KeyboardEvent : Type := { key : string; shiftKey : bool }.

Definition cancelBtn_onclick (this : t) : t :=
  close (set_result None this).

Definition sendBtn_onclick (this : t) : t :=
  close (set_result (Some (textarea_value this)) this).

(** The [keypress] listener of the textarea.  It never touches the
    textarea's value and never cancels the event's default action. *)
Definition textarea_keypress (e : KeyboardEvent) (this : t) : t :=
  if String.eqb (key e) "Enter" && shiftKey e then this
  else if String.eqb (key e) "Enter"
       then close (set_result (Some (textarea_value this)) this)
       else this.

(** What can happen to an open modal. *)
Inductive Event : Type :=
| input (value : string)        (* the textarea's value becomes [value] *)
| keypress (e : KeyboardEvent)
| click_cancelBtn
| click_sendBtn
| dismiss.                      (* the host closes the modal *)

Definition set_textarea (v : string) (this : t) : t :=
  {| result := result this; placeholder := placeholder this;
     textarea_value := v; isOpen := isOpen this |}.

(** An event reaches its handler only while the modal is up.  The callback
    resumes at the first close and reads [result] then; what a handler
    would do with an event delivered after that is no part of a run. *)
Definition dispatch (this : t) (ev : Event) : t :=
  if isOpen this then
    match ev with
    | input v => set_textarea v this
    | keypress e => textarea_keypress e this
    | click_cancelBtn => cancelBtn_onclick this
    | click_sendBtn => sendBtn_onclick this
    | dismiss => close this
    end
  else this.

Definition interact (this : t) (events : list Event) : t :=
  fold_left dispatch events this.

End InstructionModal.

(** ** Asynchronous callbacks *)

Inductive Completion (A : Type) : Type :=
| Normal (a : A)
| Returned                 (* a [return;] was executed *)
| Thrown (err : JSError)
| Suspended.               (* an awaited promise never settles *)
Arguments Normal {A} a.
Arguments Returned {A}.
Arguments Thrown {A} err.
Arguments Suspended {A}.

Definition Async (A : Type) : Type :=
  list Effect -> Completion A * list Effect.

Definition ret {A} (a : A) : Async A := fun log => (Normal a, log).

Definition bind {A B} (m : Async A) (k : A -> Async B) : Async B :=
  fun log =>
    match m log with
    | (Normal a, log') => k a log'
    | (Returned, log') => (Returned, log')
    | (Thrown err, log') => (Thrown err, log')
    | (Suspended, log') => (Suspended, log')
    end.

Declare Scope async_scope.
Delimit Scope async_scope with async.
Notation "x <- c1 ;; c2" := (bind c1 (fun x => c2))
  (at level 61, c1 at next level, right associativity) : async_scope.
Notation "c1 ;; c2" := (bind c1 (fun _ => c2))
  (at level 61, right associativity) : async_scope.
Local Open Scope async_scope.

Definition return_ {A} : Async A := fun log => (Returned, log).

Definition emit (e : Effect) : Async unit := fun log => (Normal tt, (log ++ [e])%list).

Definition created (kind : Effect -> bool) : Async nat :=
  fun log => (Normal (length (filter kind log)), log).

(** [if (c) { ... }] with no [else]. *)
Definition when (c : bool) (m : Async unit) : Async unit :=
  if c then m else ret tt.

Definition await {A} (p : Settled A) : Async A :=
  fun log =>
    match p with
    | Fulfilled a => (Normal a, log)
    | Rejected err => (Thrown err, log)
    end.

(** [try { body } catch (err) { handler } finally { finalizer }] *)
Definition try_catch_finally {A} (body : Async A) (handler : JSError -> Async A)
    (finalizer : Async unit) : Async A :=
  fun log =>
    let '(c1, log1) := body log in
    let '(c2, log2) :=
      match c1 with
      | Thrown err => handler err log1
      | _ => (c1, log1)
      end in
    match c2 with
    | Suspended => (Suspended, log2)
    | _ =>
        match finalizer log2 with
        | (Normal _, log3) => (c2, log3)
        | (Returned, log3) => (Returned, log3)
        | (Thrown err, log3) => (Thrown err, log3)
        | (Suspended, log3) => (Suspended, log3)
        end
    end.

(** Host calls. *)

Definition new_Notice (text : string) (duration : option N) : Async nat :=
  notice <- created is_notice ;;
  emit (NoticeNew notice text duration) ;;
  ret notice.

Definition Notice_hide (notice : nat) : Async unit := emit (NoticeHide notice).

Definition new_AbortController : Async nat :=
  controller <- created is_controller ;;
  emit (AbortControllerNew controller) ;;
  ret controller.

(** [setTimeout(() => controller.abort(), ms)] *)
Definition setTimeout_abort (controller : nat) (ms : N) : Async nat :=
  timer <- created is_timer ;;
  emit (SetTimeout timer controller ms) ;;
  ret timer.

Definition clearTimeout (timer : nat) : Async unit := emit (ClearTimeout timer).

Definition console_error (err : JSError) : Async unit := emit (ConsoleError err).

Definition setSelection (anchor head : EditorPosition) : Async unit :=
  emit (EditorSetSelection anchor head).

Definition replaceSelection (replacement : JSON) : Async unit :=
  emit (EditorReplaceSelection replacement).

(** [modal.open()] followed by the wait for [onClose]: the user's events
    are played on the modal; if they leave it open the wait never ends. *)
Definition open_and_await_close (placeholder : string)
    (events : list InstructionModal.Event) : Async InstructionModal.t :=
  emit (ModalOpen placeholder) ;;
  (fun log =>
     let modal :=
       InstructionModal.interact
         (InstructionModal.open (InstructionModal.new placeholder)) events in
     if InstructionModal.isOpen modal then (Suspended, log)
     else (Normal modal, log)).

Definition fetch (url : string) (init : RequestInit)
    (outcome : Settled Response) : Async Response :=
  emit (Fetch url init) ;;
  await outcome.

(** ** The plugin *)

Record TimewebPluginSettings : Type := { token : string; agentId : string }.

Definition DEFAULT_SETTINGS : TimewebPluginSettings :=
  {| token := ""; agentId := "" |}.

(** What the host answers during one run of the command. *)
Record Host : Type := {
  getActiveViewOfType : option MarkdownView;
  modalEvents : list InstructionModal.Event;
  network : Settled Response
}.

(** The template literal of line 117. *)
Definition compose_message (instruction textToSend : string) : string :=
  "Инструкция: " ++ instruction ++ LF ++ LF ++ "Текст:" ++ LF ++ textToSend.

Definition editorCallback (settings : TimewebPluginSettings) (host : Host)
  : Async unit :=
  when (negb (truthy (token settings)) || negb (truthy (agentId settings)))
    (new_Notice "⚠ Укажи токен и Agent ID в настройках" None ;;
     return_) ;;
  match getActiveViewOfType host with
  | None =>
      new_Notice "⚠ Нет активного редактора" None ;;
      return_
  | Some activeView =>
      let editorInstance := editor activeView in
      let cursorStart := getCursor_from editorInstance in
      let cursorEnd := getCursor_to editorInstance in
      let selectedText := getSelection editorInstance in
      let placeholder :=
        if truthy selectedText
        then "Что сделать с выделенным текстом?"
        else "Введите текст для отправки" in
      modal <- open_and_await_close placeholder (modalEvents host) ;;
      match InstructionModal.result modal with
      | None => return_
      | Some EmptyString => return_
      | Some instructionOrText =>
          setSelection cursorStart cursorEnd ;;
          let textToSend :=
            if truthy selectedText then selectedText else instructionOrText in
          let instruction :=
            if truthy selectedText then instructionOrText
            else "Обработай текст" in
          let message := compose_message instruction textToSend in
          generationNotice <- new_Notice "⏳ Генерация..." (Some 0%N) ;;
          controller <- new_AbortController ;;
          timeout <- setTimeout_abort controller 30000%N ;;
          try_catch_finally
            (response <-
               fetch
                 ("https://api.timeweb.cloud/api/v1/cloud-ai/agents/"
                    ++ agentId settings ++ "/call")
                 {| method := "POST";
                    headers :=
                      [("Authorization", "Bearer " ++ token settings);
                       ("Content-Type", "application/json")];
                    body := JSON_stringify (JObject [("message", JString message)]);
                    signal := controller |}
                 (network host) ;;
             when (negb (ok response))
               (Notice_hide generationNotice ;;
                new_Notice
                  ("❌ Ошибка API: " ++ Number_toString (status response))
                  None ;;
                return_) ;;
             data <- await (json response) ;;
             let reply :=
               nullish_coalesce (optional_member data "message")
                 (JString "❌ Нет ответа") in
             replaceSelection reply ;;
             Notice_hide generationNotice ;;
             new_Notice "✅ Ответ вставлен в заметку" (Some 3000%N) ;;
             ret tt)
            (fun err =>
               console_error err ;;
               Notice_hide generationNotice ;;
               new_Notice "❌ Ошибка запроса или таймаут (30 секунд)" None ;;
               ret tt)
            (clearTimeout timeout)
      end
  end.

Definition run (settings : TimewebPluginSettings) (host : Host)
  : Completion unit * list Effect :=
  editorCallback settings host [].

(** ** Vocabulary for the statements *)

(** Whether the modal of a run closes, and with which [result]. *)
Inductive ModalOutcome : Type :=
| StaysOpen
| ClosesWith (result : option string).

Definition modal_outcome (events : list InstructionModal.Event) : ModalOutcome :=
  let modal :=
    InstructionModal.interact
      (InstructionModal.open (InstructionModal.new "")) events in
  if InstructionModal.isOpen modal then StaysOpen
  else ClosesWith (InstructionModal.result modal).

Definition configured (settings : TimewebPluginSettings) : Prop :=
  token settings <> "" /\ agentId settings <> "".

(** [needle] occurs in [text]. *)
Definition Substring (needle text : string) : Prop :=
  exists before after, text = before ++ needle ++ after.

(** The request of lines 126-137 for a given composed message. *)
Definition agent_call (settings : TimewebPluginSettings) (message : string)
    (controller : nat) : Effect :=
  Fetch ("https://api.timeweb.cloud/api/v1/cloud-ai/agents/"
           ++ agentId settings ++ "/call")
    {| method := "POST";
       headers := [("Authorization", "Bearer " ++ token settings);
                   ("Content-Type", "application/json")];
       body := JSON_stringify (JObject [("message", JString message)]);
       signal := controller |}.

(** The instruction and the text of lines 114-115. *)
Definition payload (selectedText instructionOrText : string) : string * string :=
  if truthy selectedText then (instructionOrText, selectedText)
  else ("Обработай текст", instructionOrText).

(** What a run has done when its request is on the wire. *)
Definition dispatched (settings : TimewebPluginSettings) (e : Editor)
    (instructionOrText : string) : list Effect :=
  [ ModalOpen (if truthy (getSelection e)
               then "Что сделать с выделенным текстом?"
               else "Введите текст для отправки");
    EditorSetSelection (getCursor_from e) (getCursor_to e);
    NoticeNew 0 "⏳ Генерация..." (Some 0%N);
    AbortControllerNew 0;
    SetTimeout 0 0 30000%N;
    agent_call settings
      (compose_message (fst (payload (getSelection e) instructionOrText))
                       (snd (payload (getSelection e) instructionOrText))) 0 ].

(** The bodies of the requests a run has sent. *)
Definition request_bodies (log : list Effect) : list BodyInit :=
  flat_map (fun e => match e with Fetch _ init => [body init] | _ => [] end) log.

(** The same modal under another placeholder. *)
Definition with_placeholder (p : string) (m : InstructionModal.t)
  : InstructionModal.t :=
  {| InstructionModal.result := InstructionModal.result m;
     InstructionModal.placeholder := p;
     InstructionModal.textarea_value := InstructionModal.textarea_value m;
     InstructionModal.isOpen := InstructionModal.isOpen m |}.

(** ** Sample runs *)

Definition sample_settings : TimewebPluginSettings :=
  {| token := "secret"; agentId := "agent-7" |}.

Definition view_with_selection : MarkdownView :=
  {| editor := {| getCursor_from := {| line := 1; ch := 2 |};
                  getCursor_to := {| line := 1; ch := 7 |};
                  getSelection := "Hello" |} |}.

Definition view_without_selection : MarkdownView :=
  {| editor := {| getCursor_from := {| line := 4; ch := 0 |};
                  getCursor_to := {| line := 4; ch := 0 |};
                  getSelection := "" |} |}.

Definition Enter (shift : bool) : InstructionModal.Event :=
  InstructionModal.keypress
    {| InstructionModal.key := "Enter"; InstructionModal.shiftKey := shift |}.

(** The user types an instruction and presses Enter. *)
Definition submits : list InstructionModal.Event :=
  [InstructionModal.input "translate"; Enter false].

Definition AbortError : JSError :=
  {| error_name := "AbortError"; error_message := "The user aborted a request." |}.

Definition sample_host (view : MarkdownView)
    (events : list InstructionModal.Event) (outcome : Settled Response) : Host :=
  {| getActiveViewOfType := Some view; modalEvents := events; network := outcome |}.

Definition replies (data : JSON) : Settled Response :=
  Fulfilled {| ok := true; status := 200%N; json := Fulfilled data |}.

Definition host_null_message : Host :=
  sample_host view_with_selection submits (replies (JObject [("message", JNull)])).

Definition host_hola : Host :=
  sample_host view_with_selection submits
    (replies (JObject [("message", JString "Hola")])).

Definition host_typed : Host :=
  sample_host view_without_selection submits
    (replies (JObject [("message", JString "Hola")])).

Definition host_empty_message : Host :=
  sample_host view_with_selection submits
    (replies (JObject [("message", JString "")])).

Definition host_cancelled : Host :=
  sample_host view_with_selection
    [InstructionModal.input "translate"; InstructionModal.click_cancelBtn]
    (replies (JObject [("message", JString "Hola")])).

Definition server_error : Response :=
  {| ok := false; status := 500%N; json := Rejected AbortError |}.

Definition host_server_error : Host :=
  sample_host view_with_selection submits (Fulfilled server_error).

Definition host_timeout : Host :=
  sample_host view_with_selection submits (Rejected AbortError).

(** ** The settings store *)

(** [target[key] = value] on an ordinary object: an existing own property
    keeps its place, a new one goes last.  The key [__proto__] is the
    exception: with no own property of that name the assignment goes to the
    setter inherited from [Object.prototype], which creates no property.
    Prototypes themselves are left out: the plugin reads [token] and
    [agentId], own properties after every load, and the host saves own
    properties only. *)
Fixpoint set_property (key : string) (value : JSON)
    (target : list (string * JSON)) : list (string * JSON) :=
  match target with
  | [] => if String.eqb key "__proto__" then [] else [(key, value)]
  | (k, v) :: rest =>
      if String.eqb k key then (k, value) :: rest
      else (k, v) :: set_property key value rest
  end.

(** One source of [Object.assign]: each own key of [source], in order, is
    read from [source] and set on [target]. *)
Definition assign_from (target source : list (string * JSON))
  : list (string * JSON) :=
  fold_left
    (fun t k =>
       match own_property k source with
       | Some v => set_property k v t
       | None => t
       end)
    (map fst source) target.

(** [Object.assign(target, ...sources)]; a source that is [null] is
    skipped. *)
Definition Object_assign (target : list (string * JSON))
    (sources : list (option (list (string * JSON)))) : list (string * JSON) :=
  fold_left
    (fun t source =>
       match source with
       | Some o => assign_from t o
       | None => t
       end)
    sources target.

(** The object a settings record is. *)
Definition settings_object (s : TimewebPluginSettings) : list (string * JSON) :=
  [("token", JString (token s)); ("agentId", JString (agentId s))].

(** The settings object read at its declared type. *)
Definition as_settings (o : list (string * JSON)) : option TimewebPluginSettings :=
  match own_property "token" o, own_property "agentId" o with
  | Some (JString t), Some (JString a) => Some {| token := t; agentId := a |}
  | _, _ => None
  end.

Module TimewebPlugin.

(** [this.settings], and what the host keeps for [loadData]/[saveData]:
    [None] until something is saved, then the object saved last. *)
Record t : Type := {
  settings : list (string * JSON);
  data : option (list (string * JSON))
}.

Definition loadSettings (this : t) : t :=
  {| settings :=
       Object_assign [] [Some (settings_object DEFAULT_SETTINGS); data this];
     data := data this |}.

Definition saveSettings (this : t) : t :=
  {| settings := settings this; data := Some (settings this) |}.

End TimewebPlugin.

Module TimewebSettingTab.

(** The [onChange] callbacks of the two text fields. *)
Definition token_onChange (value : string) (plugin : TimewebPlugin.t)
  : TimewebPlugin.t :=
  TimewebPlugin.saveSettings
    {| TimewebPlugin.settings :=
         set_property "token" (JString value) (TimewebPlugin.settings plugin);
       TimewebPlugin.data := TimewebPlugin.data plugin |}.

Definition agentId_onChange (value : string) (plugin : TimewebPlugin.t)
  : TimewebPlugin.t :=
  TimewebPlugin.saveSettings
    {| TimewebPlugin.settings :=
         set_property "agentId" (JString value) (TimewebPlugin.settings plugin);
       TimewebPlugin.data := TimewebPlugin.data plugin |}.

End TimewebSettingTab.

(** The property [key] of what the host has saved, if anything. *)
Definition saved_property (this : TimewebPlugin.t) (key : string) : option JSON :=
  match TimewebPlugin.data this with
  | Some stored => own_property key stored
  | None => None
  end.

(** A plugin just constructed, with nothing saved yet. *)
Definition fresh_install : TimewebPlugin.t :=
  {| TimewebPlugin.settings := []; TimewebPlugin.data := None |}.

(** ** Vocabulary for the modal's sessions *)

(** The events that take an open modal down. *)
Definition closes (ev : InstructionModal.Event) : bool :=
  match ev with
  | InstructionModal.input _ => false
  | InstructionModal.keypress e =>
      String.eqb (InstructionModal.key e) "Enter"
      && negb (InstructionModal.shiftKey e)
  | InstructionModal.click_cancelBtn
  | InstructionModal.click_sendBtn
  | InstructionModal.dismiss => true
  end.

(** The textarea's value after [events], starting from [value]. *)
Definition typed (events : list InstructionModal.Event) (value : string) : string :=
  fold_left
    (fun v ev => match ev with InstructionModal.input v' => v' | _ => v end)
    events value.

(** The result a closing event leaves, the textarea holding [value]. *)
Definition closing_result (ev : InstructionModal.Event) (value : string)
  : option string :=
  match ev with
  | InstructionModal.click_sendBtn | InstructionModal.keypress _ => Some value
  | _ => None
  end.

(** The notices still up after [log]: created and not hidden since. *)
Definition on_screen (log : list Effect) : list (nat * string * option N) :=
  fold_left
    (fun shown e =>
       match e with
       | NoticeNew n text duration => (shown ++ [(n, text, duration)])%list
       | NoticeHide n =>
           filter (fun x => negb (Nat.eqb (fst (fst x)) n)) shown
       | _ => shown
       end)
    log [].

(** The value of a decimal digit: the characters with codes 48 to 57. *)
Definition digit_value (c : ascii) : option N :=
  let code := N_of_ascii c in
  if ((48 <=? code) && (code <=? 57))%N then Some (code - 48)%N else None.

(** The number that a string of decimal digits denotes, read from the most
    significant digit on; [None] when a character is not a digit. *)
Fixpoint decimal_value_from (acc : N) (s : string) : option N :=
  match s with
  | EmptyString => Some acc
  | String c rest =>
      match digit_value c with
      | Some d => decimal_value_from (10 * acc + d) rest
      | None => None
      end
  end.

Definition decimal_value (s : string) : option N :=
  match s with
  | EmptyString => None
  | String _ _ => decimal_value_from 0 s
  end.

(** The lines of a text: its pieces between line feeds (character 10). *)
Fixpoint lines (s : string) : list string :=
  match s with
  | EmptyString => [EmptyString]
  | String c rest =>
      if Ascii.eqb c "010"%char then EmptyString :: lines rest
      else match lines rest with
           | [] => [String c EmptyString]
           | first :: others => String c first :: others
           end
  end.

(** The separator the template literal puts between its two blocks. *)
Definition text_label : string := LF ++ LF ++ "Текст:" ++ LF.

(** ** The modal's placeholder plays no part in its outcome *)

Lemma dispatch_with_placeholder p m ev :
  InstructionModal.dispatch (with_placeholder p m) ev
  = with_placeholder p (InstructionModal.dispatch m ev).
Proof.
  unfold InstructionModal.dispatch; cbn.
  destruct (InstructionModal.isOpen m) eqn:Hopen; [ | reflexivity ].
  destruct ev as [v | e | | | ]; try reflexivity.
  unfold InstructionModal.textarea_keypress.
  destruct (String.eqb (InstructionModal.key e) "Enter"),
           (InstructionModal.shiftKey e); reflexivity.
Qed.

Lemma interact_with_placeholder p events : forall m,
  InstructionModal.interact (with_placeholder p m) events
  = with_placeholder p (InstructionModal.interact m events).
Proof.
  unfold InstructionModal.interact.
  induction events as [ | ev events IH ]; intro m; cbn.
  - reflexivity.
  - rewrite dispatch_with_placeholder. apply IH.
Qed.

Lemma open_and_await_close_outcome p events log :
  open_and_await_close p events log =
  match modal_outcome events with
  | StaysOpen => (Suspended, (log ++ [ModalOpen p])%list)
  | ClosesWith r =>
      (Normal (with_placeholder p
                 (InstructionModal.interact
                    (InstructionModal.open (InstructionModal.new "")) events)),
       (log ++ [ModalOpen p])%list)
  end.
Proof.
  unfold open_and_await_close, modal_outcome, bind, emit.
  change (InstructionModal.open (InstructionModal.new p))
    with (with_placeholder p (InstructionModal.open (InstructionModal.new ""))).
  rewrite interact_with_placeholder. cbn.
  destruct (InstructionModal.isOpen _); reflexivity.
Qed.

Lemma modal_outcome_result events r :
  modal_outcome events = ClosesWith r ->
  InstructionModal.result
    (InstructionModal.interact
       (InstructionModal.open (InstructionModal.new "")) events) = r.
Proof.
  unfold modal_outcome.
  destruct (InstructionModal.isOpen _); congruence.
Qed.

Lemma truthy_nonempty s : s <> "" -> truthy s = true.
Proof. destruct s; [ congruence | reflexivity ]. Qed.

(** ** The paths of one run *)

Section Paths.

Variable settings : TimewebPluginSettings.
Variable host : Host.

Lemma run_unconfigured :
  token settings = "" \/ agentId settings = "" ->
  run settings host
  = (Returned, [NoticeNew 0 "⚠ Укажи токен и Agent ID в настройках" None]).
Proof.
  unfold run, editorCallback.
  intros [H | H]; rewrite H; cbn.
  - reflexivity.
  - destruct (token settings); reflexivity.
Qed.

Hypothesis Hconfigured : configured settings.

Lemma run_no_view :
  getActiveViewOfType host = None ->
  run settings host = (Returned, [NoticeNew 0 "⚠ Нет активного редактора" None]).
Proof.
  destruct Hconfigured as [Ht Ha].
  unfold run, editorCallback. intros ->.
  rewrite (truthy_nonempty _ Ht), (truthy_nonempty _ Ha). reflexivity.
Qed.

Variable activeView : MarkdownView.
Hypothesis Hview : getActiveViewOfType host = Some activeView.

Let placeholder : string :=
  if truthy (getSelection (editor activeView))
  then "Что сделать с выделенным текстом?"
  else "Введите текст для отправки".

Lemma run_modal_stays_open :
  modal_outcome (modalEvents host) = StaysOpen ->
  run settings host = (Suspended, [ModalOpen placeholder]).
Proof.
  destruct Hconfigured as [Ht Ha].
  unfold run, editorCallback. rewrite Hview. intros Hm.
  rewrite (truthy_nonempty _ Ht), (truthy_nonempty _ Ha). cbn.
  unfold bind at 1. rewrite open_and_await_close_outcome, Hm. reflexivity.
Qed.

Lemma run_modal_cancelled r :
  modal_outcome (modalEvents host) = ClosesWith r ->
  r = None \/ r = Some "" ->
  run settings host = (Returned, [ModalOpen placeholder]).
Proof.
  destruct Hconfigured as [Ht Ha].
  unfold run, editorCallback. rewrite Hview. intros Hm Hr.
  rewrite (truthy_nonempty _ Ht), (truthy_nonempty _ Ha). cbn.
  unfold bind at 1. rewrite open_and_await_close_outcome, Hm. cbn.
  rewrite (modal_outcome_result _ _ Hm).
  destruct Hr as [-> | ->]; reflexivity.
Qed.

Variable instructionOrText : string.
Hypothesis Hmodal :
  modal_outcome (modalEvents host) = ClosesWith (Some instructionOrText).
Hypothesis Hsubmitted : instructionOrText <> "".

Let prefix : list Effect :=
  dispatched settings (editor activeView) instructionOrText.

Ltac enter_dispatch :=
  destruct Hconfigured as [Ht Ha];
  unfold run, editorCallback; rewrite Hview;
  rewrite (truthy_nonempty _ Ht), (truthy_nonempty _ Ha); cbn;
  unfold bind at 1; rewrite open_and_await_close_outcome, Hmodal; cbn;
  rewrite (modal_outcome_result _ _ Hmodal);
  destruct instructionOrText as [ | c rest ]; [ congruence | ];
  subst prefix; unfold dispatched, payload, agent_call.

Ltac settle :=
  unfold try_catch_finally, fetch, bind, emit, await, when; cbn.

Lemma run_request_rejected err :
  network host = Rejected err ->
  run settings host
  = (Normal tt,
     (prefix ++
      [ ConsoleError err; NoticeHide 0;
        NoticeNew 1 "❌ Ошибка запроса или таймаут (30 секунд)" None;
        ClearTimeout 0 ])%list).
Proof.
  intros Hnet. enter_dispatch. rewrite Hnet.
  destruct (truthy (getSelection (editor activeView))); reflexivity.
Qed.

Lemma run_status_not_ok response :
  network host = Fulfilled response ->
  ok response = false ->
  run settings host
  = (Returned,
     (prefix ++
      [ NoticeHide 0;
        NoticeNew 1 ("❌ Ошибка API: " ++ Number_toString (status response)) None;
        ClearTimeout 0 ])%list).
Proof.
  intros Hnet Hok. enter_dispatch. rewrite Hnet.
  destruct (truthy (getSelection (editor activeView)));
    settle; rewrite Hok; reflexivity.
Qed.

Lemma run_body_rejected response err :
  network host = Fulfilled response ->
  ok response = true ->
  json response = Rejected err ->
  run settings host
  = (Normal tt,
     (prefix ++
      [ ConsoleError err; NoticeHide 0;
        NoticeNew 1 "❌ Ошибка запроса или таймаут (30 секунд)" None;
        ClearTimeout 0 ])%list).
Proof.
  intros Hnet Hok Hjson. enter_dispatch. rewrite Hnet.
  destruct (truthy (getSelection (editor activeView)));
    settle; rewrite Hok; cbn; rewrite Hjson; reflexivity.
Qed.

Lemma run_reply_inserted response data :
  network host = Fulfilled response ->
  ok response = true ->
  json response = Fulfilled data ->
  run settings host
  = (Normal tt,
     (prefix ++
      [ EditorReplaceSelection
          (nullish_coalesce (optional_member data "message")
             (JString "❌ Нет ответа"));
        NoticeHide 0;
        NoticeNew 1 "✅ Ответ вставлен в заметку" (Some 3000%N);
        ClearTimeout 0 ])%list).
Proof.
  intros Hnet Hok Hjson. enter_dispatch. rewrite Hnet.
  destruct (truthy (getSelection (editor activeView)));
    settle; rewrite Hok; cbn; rewrite Hjson; reflexivity.
Qed.

End Paths.

Lemma run_after_dispatch settings host activeView instructionOrText :
  configured settings ->
  getActiveViewOfType host = Some activeView ->
  modal_outcome (modalEvents host) = ClosesWith (Some instructionOrText) ->
  instructionOrText <> "" ->
  exists completion tail,
    run settings host
    = (completion,
       (dispatched settings (editor activeView) instructionOrText ++ tail)%list)
    /\ filter is_fetch tail = []
    /\ filter is_timer tail = []
    /\ filter is_controller tail = [].
Proof.
  intros Hc Hv Hm Hs.
  destruct (network host) as [response | err] eqn:Hnet.
  - destruct (ok response) eqn:Hok.
    + destruct (json response) as [data | err] eqn:Hjson.
      * eexists _, _; split;
          [ apply (run_reply_inserted _ _ Hc _ Hv _ Hm Hs _ _ Hnet Hok Hjson) | ].
        repeat split; reflexivity.
      * eexists _, _; split;
          [ apply (run_body_rejected _ _ Hc _ Hv _ Hm Hs _ _ Hnet Hok Hjson) | ].
        repeat split; reflexivity.
    + eexists _, _; split;
        [ apply (run_status_not_ok _ _ Hc _ Hv _ Hm Hs _ Hnet Hok) | ].
      repeat split; reflexivity.
  - eexists _, _; split;
      [ apply (run_request_rejected _ _ Hc _ Hv _ Hm Hs _ Hnet) | ].
    repeat split; reflexivity.
Qed.

Lemma string_empty_dec (s : string) : {s = ""} + {s <> ""}.
Proof. destruct s; [ left; reflexivity | right; congruence ]. Qed.

(** A run either never touches the network or has passed every guard. *)
Lemma run_offline_or_dispatched settings host :
  filter is_fetch (snd (run settings host)) = []
  \/ exists activeView instructionOrText,
       configured settings
       /\ getActiveViewOfType host = Some activeView
       /\ modal_outcome (modalEvents host) = ClosesWith (Some instructionOrText)
       /\ instructionOrText <> "".
Proof.
  destruct (string_empty_dec (token settings)) as [Ht | Ht].
  { left. rewrite run_unconfigured by (left; exact Ht). reflexivity. }
  destruct (string_empty_dec (agentId settings)) as [Ha | Ha].
  { left. rewrite run_unconfigured by (right; exact Ha). reflexivity. }
  assert (Hc : configured settings) by (split; assumption).
  destruct (getActiveViewOfType host) as [activeView | ] eqn:Hv.
  2: { left. rewrite (run_no_view _ _ Hc Hv). reflexivity. }
  destruct (modal_outcome (modalEvents host)) as [ | [v | ]] eqn:Hm.
  - left. rewrite (run_modal_stays_open _ _ Hc _ Hv Hm). reflexivity.
  - destruct (string_empty_dec v) as [-> | Hs].
    + left. rewrite (run_modal_cancelled _ _ Hc _ Hv _ Hm) by (right; reflexivity).
      reflexivity.
    + right. exists activeView, v. repeat split; assumption || apply Hc.
  - left. rewrite (run_modal_cancelled _ _ Hc _ Hv _ Hm) by (left; reflexivity).
    reflexivity.
Qed.

Lemma request_bodies_app log1 log2 :
  request_bodies (log1 ++ log2) = (request_bodies log1 ++ request_bodies log2)%list.
Proof. apply flat_map_app. Qed.

Lemma request_bodies_no_fetch log :
  filter is_fetch log = [] -> request_bodies log = [].
Proof.
  induction log as [ | e log IH ]; [ reflexivity | ].
  destruct e; cbn; try exact IH. discriminate.
Qed.

(** ** The claims *)

(** C1. In a run that passes the guards and sends its request, the sent
    message is, character for character, the instruction label, the
    instruction, two line feeds, the text label, a line feed and the text.
    With a non-empty selection the instruction is the modal's result and the
    text is the selection, verbatim; with an empty selection the
    instruction is the fixed default and the text is the modal's result. *)
Theorem message_sections_follow_selection settings host activeView modalValue :
  configured settings ->
  getActiveViewOfType host = Some activeView ->
  modal_outcome (modalEvents host) = ClosesWith (Some modalValue) ->
  modalValue <> "" ->
  let selectedText := getSelection (editor activeView) in
  let sent := request_bodies (snd (run settings host)) in
  (selectedText <> "" ->
   sent = [JSON_stringify
             (JObject
                [("message",
                  JString
                    ("Инструкция: " ++ modalValue
                       ++ String "010"%char
                            (String "010"%char
                               ("Текст:" ++ String "010"%char selectedText))))])])
  /\ (selectedText = "" ->
      sent = [JSON_stringify
                (JObject
                   [("message",
                     JString
                       ("Инструкция: " ++ "Обработай текст"
                          ++ String "010"%char
                               (String "010"%char
                                  ("Текст:" ++ String "010"%char modalValue))))])]).
Proof.
  intros Hc Hv Hm Hs selectedText sent. subst sent.
  destruct (run_after_dispatch _ _ _ _ Hc Hv Hm Hs)
    as (completion & tail & -> & Hfetch & _).
  cbn [snd]. rewrite request_bodies_app, (request_bodies_no_fetch _ Hfetch).
  unfold dispatched, payload. fold selectedText.
  split; intros Hsel.
  - rewrite (truthy_nonempty _ Hsel). reflexivity.
  - rewrite Hsel. reflexivity.
Qed.

Lemma message_sections_follow_selection_witness :
  request_bodies (snd (run sample_settings host_hola))
  = [JSON_stringify
       (JObject
          [("message",
            JString
              ("Инструкция: translate"
                 ++ String "010"%char
                      (String "010"%char
                         ("Текст:" ++ String "010"%char "Hello"))))])]
  /\ request_bodies (snd (run sample_settings host_typed))
     = [JSON_stringify
          (JObject
             [("message",
               JString
                 ("Инструкция: Обработай текст"
                    ++ String "010"%char
                         (String "010"%char
                            ("Текст:" ++ String "010"%char "translate"))))])].
Proof.
  split.
  - refine (proj1 (message_sections_follow_selection sample_settings host_hola
                     view_with_selection "translate" _ _ _ _) _).
    + split; discriminate.
    + reflexivity.
    + reflexivity.
    + discriminate.
    + discriminate.
  - refine (proj2 (message_sections_follow_selection sample_settings host_typed
                     view_without_selection "translate" _ _ _ _) _).
    + split; discriminate.
    + reflexivity.
    + reflexivity.
    + discriminate.
    + reflexivity.
Defined.

(** C3. When the modal closes with no result or with the empty string, the
    run ends there: opening the modal is all it has done.  The editor is not
    written (the selection is not restored either), nothing is fetched and
    no notice is created. *)
Theorem cancelled_modal_aborts_silently settings host activeView r :
  configured settings ->
  getActiveViewOfType host = Some activeView ->
  modal_outcome (modalEvents host) = ClosesWith r ->
  r = None \/ r = Some "" ->
  let log := snd (run settings host) in
  fst (run settings host) = Returned
  /\ (exists placeholder, log = [ModalOpen placeholder])
  /\ filter is_editor_write log = []
  /\ filter is_fetch log = []
  /\ filter is_notice log = [].
Proof.
  intros Hc Hv Hm Hr log. subst log.
  rewrite (run_modal_cancelled _ _ Hc _ Hv _ Hm Hr). cbn.
  repeat split; try reflexivity. eexists; reflexivity.
Qed.

Lemma cancelled_modal_aborts_silently_witness :
  filter is_editor_write (snd (run sample_settings host_cancelled)) = []
  /\ filter is_fetch (snd (run sample_settings host_cancelled)) = []
  /\ filter is_notice (snd (run sample_settings host_cancelled)) = [].
Proof.
  refine (proj2 (proj2 (cancelled_modal_aborts_silently sample_settings
                          host_cancelled view_with_selection None _ _ _ _))).
  - split; discriminate.
  - reflexivity.
  - reflexivity.
  - left; reflexivity.
Defined.

(** C4. With an empty token or an empty agent identifier the run creates
    one warning notice and returns: that notice is its only effect, so
    nothing is fetched and nothing is written. *)
Theorem missing_setting_warns_once settings host :
  token settings = "" \/ agentId settings = "" ->
  let log := snd (run settings host) in
  fst (run settings host) = Returned
  /\ log = [NoticeNew 0 "⚠ Укажи токен и Agent ID в настройках" None]
  /\ filter is_fetch log = []
  /\ filter is_editor_write log = []
  /\ length (filter is_notice log) = 1%nat.
Proof.
  intros H log. subst log. rewrite (run_unconfigured _ _ H).
  repeat split.
Qed.

Lemma missing_setting_warns_once_witness :
  snd (run DEFAULT_SETTINGS host_hola)
  = [NoticeNew 0 "⚠ Укажи токен и Agent ID в настройках" None]
  /\ filter is_fetch (snd (run DEFAULT_SETTINGS host_hola)) = []
  /\ filter is_editor_write (snd (run DEFAULT_SETTINGS host_hola)) = []
  /\ length (filter is_notice (snd (run DEFAULT_SETTINGS host_hola))) = 1%nat.
Proof.
  refine (proj2 (missing_setting_warns_once DEFAULT_SETTINGS host_hola _)).
  left; reflexivity.
Defined.

Lemma append_empty_r (s : string) : s ++ "" = s.
Proof. induction s as [ | c s IH ]; cbn; [ | rewrite IH ]; reflexivity. Qed.

Lemma Substring_suffix (before needle : string) :
  Substring needle (before ++ needle).
Proof. exists before, "". rewrite append_empty_r. reflexivity. Qed.

Lemma filter_nil_not_In {A} (f : A -> bool) (l : list A) (x : A) :
  filter f l = [] -> f x = true -> ~ In x l.
Proof.
  intros Hnil Hx Hin.
  assert (H : In x (filter f l)) by (apply filter_In; split; assumption).
  rewrite Hnil in H. exact H.
Qed.

Lemma decimal_value_from_digits d : forall acc,
  decimal_value_from acc (NilEmpty.string_of_uint d)
  = Some (DecimalPos.Unsigned.of_lu (Decimal.rev d)
          + acc * 10 ^ DecimalPos.Unsigned.usize d)%N.
Proof.
  induction d; intros acc;
    cbn [NilEmpty.string_of_uint decimal_value_from];
    [ cbn; f_equal; ring | .. ];
    match goal with
    | |- context [digit_value ?c] =>
        let v := eval vm_compute in (digit_value c) in
        change (digit_value c) with v
    end;
    cbv iota;
    rewrite IHd; f_equal; cbn [DecimalPos.Unsigned.usize];
    rewrite N.pow_succ_r';
    match goal with
    | |- context [DecimalPos.Unsigned.of_lu (Decimal.rev (?D d))] =>
        change (Decimal.rev (D d)) with (Decimal.revapp d (D Decimal.Nil))
    end;
    rewrite DecimalPos.Unsigned.of_lu_revapp;
    cbn [DecimalPos.Unsigned.of_lu]; ring.
Qed.

(** What [Number_toString] prints reads back, digit by digit, as the
    number printed. *)
Lemma decimal_value_Number_toString n :
  decimal_value (Number_toString n) = Some n.
Proof.
  unfold Number_toString, NilZero.string_of_uint.
  assert (H : decimal_value_from 0 (NilEmpty.string_of_uint (N.to_uint n))
              = Some n).
  { rewrite decimal_value_from_digits, N.mul_0_l, N.add_0_r.
    rewrite <- DecimalPos.Unsigned.of_uint_alt.
    change (Pos.of_uint (N.to_uint n)) with (N.of_uint (N.to_uint n)).
    rewrite DecimalN.Unsigned.of_to. reflexivity. }
  destruct (N.to_uint n); exact H.
Qed.

(** C5. When the response's status is not a success, the run hides the
    in-progress notice, creates an error notice whose text ends with the
    status in decimal (digits whose value is the status), clears the timer
    and returns.  One request was sent and none follows; no text is
    replaced in the editor. *)
Theorem error_status_is_reported settings host activeView modalValue response :
  configured settings ->
  getActiveViewOfType host = Some activeView ->
  modal_outcome (modalEvents host) = ClosesWith (Some modalValue) ->
  modalValue <> "" ->
  network host = Fulfilled response ->
  ok response = false ->
  let notice := "❌ Ошибка API: " ++ Number_toString (status response) in
  run settings host
  = (Returned,
     (dispatched settings (editor activeView) modalValue ++
      [NoticeHide 0; NoticeNew 1 notice None; ClearTimeout 0])%list)
  /\ Substring (Number_toString (status response)) notice
  /\ decimal_value (Number_toString (status response)) = Some (status response)
  /\ filter is_replace (snd (run settings host)) = []
  /\ length (filter is_fetch (snd (run settings host))) = 1%nat.
Proof.
  intros Hc Hv Hm Hs Hnet Hok notice.
  rewrite (run_status_not_ok _ _ Hc _ Hv _ Hm Hs _ Hnet Hok).
  repeat split.
  - apply Substring_suffix.
  - apply decimal_value_Number_toString.
Qed.

Lemma error_status_is_reported_witness :
  Substring "500" "❌ Ошибка API: 500"
  /\ decimal_value "500" = Some 500%N
  /\ filter is_replace (snd (run sample_settings host_server_error)) = []
  /\ length (filter is_fetch (snd (run sample_settings host_server_error))) = 1%nat.
Proof.
  refine (proj2 (error_status_is_reported sample_settings host_server_error
                   view_with_selection "translate" server_error _ _ _ _ _ _)).
  - split; discriminate.
  - reflexivity.
  - reflexivity.
  - discriminate.
  - reflexivity.
  - reflexivity.
Defined.

(** C6. When the request is rejected (a transport error, or the abort that
    the 30000 ms timer triggers) or reading the body throws, the run logs
    the error, hides the in-progress notice, creates one error notice and
    clears the timer.  The notice is the same whatever the error was and
    names the 30 second window; no text is replaced in the editor. *)
Theorem failed_request_is_reported settings host activeView modalValue err :
  configured settings ->
  getActiveViewOfType host = Some activeView ->
  modal_outcome (modalEvents host) = ClosesWith (Some modalValue) ->
  modalValue <> "" ->
  network host = Rejected err
  \/ (exists response,
        network host = Fulfilled response
        /\ ok response = true /\ json response = Rejected err) ->
  let notice := "❌ Ошибка запроса или таймаут (30 секунд)" in
  run settings host
  = (Normal tt,
     (dispatched settings (editor activeView) modalValue ++
      [ConsoleError err; NoticeHide 0; NoticeNew 1 notice None;
       ClearTimeout 0])%list)
  /\ filter is_notice (snd (run settings host))
     = [NoticeNew 0 "⏳ Генерация..." (Some 0%N); NoticeNew 1 notice None]
  /\ Substring "30" notice
  /\ filter is_replace (snd (run settings host)) = [].
Proof.
  intros Hc Hv Hm Hs Hfail notice.
  assert (Hrun : run settings host
                 = (Normal tt,
                    (dispatched settings (editor activeView) modalValue ++
                     [ConsoleError err; NoticeHide 0; NoticeNew 1 notice None;
                      ClearTimeout 0])%list)).
  { destruct Hfail as [Hnet | (response & Hnet & Hok & Hjson)].
    - apply (run_request_rejected _ _ Hc _ Hv _ Hm Hs _ Hnet).
    - apply (run_body_rejected _ _ Hc _ Hv _ Hm Hs _ _ Hnet Hok Hjson). }
  rewrite Hrun. repeat split.
  exists "❌ Ошибка запроса или таймаут (", " секунд)". reflexivity.
Qed.

Lemma failed_request_is_reported_witness :
  filter is_notice (snd (run sample_settings host_timeout))
  = [NoticeNew 0 "⏳ Генерация..." (Some 0%N);
     NoticeNew 1 "❌ Ошибка запроса или таймаут (30 секунд)" None]
  /\ Substring "30" "❌ Ошибка запроса или таймаут (30 секунд)"
  /\ filter is_replace (snd (run sample_settings host_timeout)) = [].
Proof.
  refine (proj2 (failed_request_is_reported sample_settings host_timeout
                   view_with_selection "translate" AbortError _ _ _ _ _)).
  - split; discriminate.
  - reflexivity.
  - reflexivity.
  - discriminate.
  - left; reflexivity.
Defined.

(** C2, as the claim words it, fails on a body whose [message] is [null]:
    the field is there, and what is inserted is the placeholder, not the
    field's value. *)
Lemma null_message_gets_placeholder :
  optional_member (JObject [("message", JNull)]) "message" = Some JNull
  /\ filter is_replace (snd (run sample_settings host_null_message))
     = [EditorReplaceSelection (JString "❌ Нет ответа")]
  /\ ~ In (EditorReplaceSelection JNull)
          (snd (run sample_settings host_null_message)).
Proof.
  split; [ reflexivity | ]. split; [ reflexivity | ].
  apply (filter_nil_not_In (fun e => match e with
                                     | EditorReplaceSelection JNull => true
                                     | _ => false
                                     end)); reflexivity.
Qed.

(** C2, amended.  For an ok response whose body parses: the run restores
    the captured range and then replaces the selection, with the [message]
    field's value when the field is there and not [null], and with the fixed
    placeholder when the field is absent or [null]; it then hides the
    in-progress notice and creates a success notice that lasts 3000 ms. *)
Theorem ok_response_is_inserted settings host activeView modalValue response data :
  configured settings ->
  getActiveViewOfType host = Some activeView ->
  modal_outcome (modalEvents host) = ClosesWith (Some modalValue) ->
  modalValue <> "" ->
  network host = Fulfilled response ->
  ok response = true ->
  json response = Fulfilled data ->
  exists reply,
    run settings host
    = (Normal tt,
       (dispatched settings (editor activeView) modalValue ++
        [EditorReplaceSelection reply; NoticeHide 0;
         NoticeNew 1 "✅ Ответ вставлен в заметку" (Some 3000%N);
         ClearTimeout 0])%list)
    /\ filter is_editor_write (snd (run settings host))
       = [EditorSetSelection (getCursor_from (editor activeView))
                             (getCursor_to (editor activeView));
          EditorReplaceSelection reply]
    /\ (forall v, optional_member data "message" = Some v -> v <> JNull ->
                  reply = v)
    /\ (optional_member data "message" = None
        \/ optional_member data "message" = Some JNull ->
        reply = JString "❌ Нет ответа").
Proof.
  intros Hc Hv Hm Hs Hnet Hok Hjson.
  exists (nullish_coalesce (optional_member data "message")
            (JString "❌ Нет ответа")).
  rewrite (run_reply_inserted _ _ Hc _ Hv _ Hm Hs _ _ Hnet Hok Hjson).
  repeat split.
  - intros v -> Hv'. destruct v; try reflexivity. congruence.
  - intros [-> | ->]; reflexivity.
Qed.

Lemma ok_response_is_inserted_witness :
  exists reply,
    run sample_settings host_hola
    = (Normal tt,
       (dispatched sample_settings (editor view_with_selection) "translate" ++
        [EditorReplaceSelection reply; NoticeHide 0;
         NoticeNew 1 "✅ Ответ вставлен в заметку" (Some 3000%N);
         ClearTimeout 0])%list)
    /\ filter is_editor_write (snd (run sample_settings host_hola))
       = [EditorSetSelection (getCursor_from (editor view_with_selection))
                             (getCursor_to (editor view_with_selection));
          EditorReplaceSelection reply]
    /\ reply = JString "Hola".
Proof.
  destruct (ok_response_is_inserted sample_settings host_hola view_with_selection
              "translate"
              {| ok := true; status := 200%N;
                 json := Fulfilled (JObject [("message", JString "Hola")]) |}
              (JObject [("message", JString "Hola")]))
    as (reply & Hrun & Hwrites & Hfield & _).
  - split; discriminate.
  - reflexivity.
  - reflexivity.
  - discriminate.
  - reflexivity.
  - reflexivity.
  - reflexivity.
  - exists reply. repeat split; try assumption.
    apply Hfield; [ reflexivity | discriminate ].
Defined.

(** C10.  An ok response whose [message] is the empty string makes the run
    replace the selection with the empty string, which is not the
    placeholder; whenever what is inserted is not the [message] field's own
    value, the field is absent or [null]. *)
Theorem empty_message_is_inserted settings host activeView modalValue response data :
  configured settings ->
  getActiveViewOfType host = Some activeView ->
  modal_outcome (modalEvents host) = ClosesWith (Some modalValue) ->
  modalValue <> "" ->
  network host = Fulfilled response ->
  ok response = true ->
  json response = Fulfilled data ->
  exists reply,
    filter is_replace (snd (run settings host)) = [EditorReplaceSelection reply]
    /\ (optional_member data "message" = Some (JString "") ->
        reply = JString "" /\ reply <> JString "❌ Нет ответа")
    /\ (optional_member data "message" <> Some reply ->
        optional_member data "message" = None
        \/ optional_member data "message" = Some JNull).
Proof.
  intros Hc Hv Hm Hs Hnet Hok Hjson.
  exists (nullish_coalesce (optional_member data "message")
            (JString "❌ Нет ответа")).
  rewrite (run_reply_inserted _ _ Hc _ Hv _ Hm Hs _ _ Hnet Hok Hjson).
  split; [ reflexivity | ]. split.
  - intros ->. split; [ reflexivity | discriminate ].
  - destruct (optional_member data "message") as [v | ];
      [ | intros _; left; reflexivity ].
    destruct v; cbn; intros Hne; try (exfalso; apply Hne; reflexivity).
    right; reflexivity.
Qed.

Lemma empty_message_is_inserted_witness :
  filter is_replace (snd (run sample_settings host_empty_message))
  = [EditorReplaceSelection (JString "")].
Proof.
  destruct (empty_message_is_inserted sample_settings host_empty_message
              view_with_selection "translate"
              {| ok := true; status := 200%N;
                 json := Fulfilled (JObject [("message", JString "")]) |}
              (JObject [("message", JString "")]))
    as (reply & Hlog & Hempty & _).
  - split; discriminate.
  - reflexivity.
  - reflexivity.
  - discriminate.
  - reflexivity.
  - reflexivity.
  - reflexivity.
  - destruct (Hempty eq_refl) as [<- _]. exact Hlog.
Defined.

(** C7.  Whatever the settings and the host, a request found in a run's log
    is a POST to the agent's call endpoint, the configured identifier
    spliced into the path, with the bearer token and the JSON content type
    as its headers and, as its body, the serialisation of an object whose
    one field [message] holds a composed message; it carries the signal of a
    controller created just before it, which a timer set to 30000 ms
    aborts. *)
Theorem request_is_bearer_post settings host url init :
  In (Fetch url init) (snd (run settings host)) ->
  url = "https://api.timeweb.cloud/api/v1/cloud-ai/agents/"
          ++ agentId settings ++ "/call"
  /\ method init = "POST"
  /\ headers init = [("Authorization", "Bearer " ++ token settings);
                     ("Content-Type", "application/json")]
  /\ (exists instruction textToSend,
        body init
        = JSON_stringify
            (JObject [("message",
                       JString (compose_message instruction textToSend))]))
  /\ (exists timer before after,
        snd (run settings host)
        = (before ++
           [AbortControllerNew (signal init);
            SetTimeout timer (signal init) 30000%N;
            Fetch url init] ++ after)%list
        /\ filter is_fetch before = []
        /\ filter is_fetch after = []).
Proof.
  intros Hin.
  destruct (run_offline_or_dispatched settings host)
    as [Hoff | (activeView & v & Hc & Hv & Hm & Hs)].
  { exfalso. revert Hin. apply (filter_nil_not_In is_fetch); [ exact Hoff | reflexivity ]. }
  destruct (run_after_dispatch _ _ _ _ Hc Hv Hm Hs)
    as (completion & tail & Hrun & Hfetch & _).
  rewrite Hrun in Hin |- *. cbn [snd] in Hin |- *.
  apply in_app_or in Hin. destruct Hin as [Hin | Hin].
  2: { exfalso. revert Hin. apply (filter_nil_not_In is_fetch); [ exact Hfetch | reflexivity ]. }
  unfold dispatched, agent_call in Hin |- *. cbn in Hin.
  destruct Hin as [Hin | [Hin | [Hin | [Hin | [Hin | [Hin | []]]]]]];
    try discriminate Hin.
  injection Hin as <- <-. cbn.
  repeat split.
  - eexists _, _. reflexivity.
  - exists 0%nat,
      [ModalOpen (if truthy (getSelection (editor activeView))
                  then "Что сделать с выделенным текстом?"
                  else "Введите текст для отправки");
       EditorSetSelection (getCursor_from (editor activeView))
                          (getCursor_to (editor activeView));
       NoticeNew 0 "⏳ Генерация..." (Some 0%N)],
      tail.
    split; [ reflexivity | split; [ reflexivity | exact Hfetch ] ].
Qed.

Lemma request_is_bearer_post_witness :
  exists url init,
    In (Fetch url init) (snd (run sample_settings host_hola))
    /\ url = "https://api.timeweb.cloud/api/v1/cloud-ai/agents/agent-7/call"
    /\ method init = "POST"
    /\ headers init = [("Authorization", "Bearer secret");
                       ("Content-Type", "application/json")].
Proof.
  eexists _, _. 
  assert (Hin : In (agent_call sample_settings (compose_message "translate" "Hello") 0)
                   (snd (run sample_settings host_hola))).
  { cbn. do 5 right. left. reflexivity. }
  split; [ exact Hin | ].
  destruct (request_is_bearer_post sample_settings host_hola _ _ Hin)
    as (Hurl & Hmethod & Hheaders & _).
  repeat split; assumption.
Defined.

Lemma lines_nonempty s : lines s <> [].
Proof.
  destruct s as [ | c s ]; cbn; [ discriminate | ].
  destruct (Ascii.eqb c "010"%char); [ discriminate | ].
  destruct (lines s); discriminate.
Qed.

(** Cutting a text at a line feed cuts its list of lines there. *)
Lemma lines_at_line_feed a b :
  lines (a ++ String "010"%char b) = (lines a ++ lines b)%list.
Proof.
  induction a as [ | c a IH ]; cbn; [ reflexivity | ].
  rewrite IH.
  destruct (Ascii.eqb c "010"%char); [ reflexivity | ].
  pose proof (lines_nonempty a) as Hne.
  destruct (lines a); [ contradiction | reflexivity ].
Qed.

(** C8.  The composed message is, character for character, the instruction
    under its label, two line feeds, and the text under its own label.
    Read line by line: the lines of the labelled instruction, one empty
    line, the line holding the text label, the lines of the text. *)
Theorem message_is_two_labelled_blocks instruction textToSend :
  compose_message instruction textToSend
  = ("Инструкция: " ++ instruction)
      ++ String "010"%char
           (String "010"%char ("Текст:" ++ String "010"%char textToSend))
  /\ lines (compose_message instruction textToSend)
     = (lines ("Инструкция: " ++ instruction)
          ++ "" :: "Текст:" :: lines textToSend)%list.
Proof.
  assert (H : compose_message instruction textToSend
              = ("Инструкция: " ++ instruction)
                  ++ String "010"%char
                       (String "010"%char
                          ("Текст:" ++ String "010"%char textToSend))).
  { unfold compose_message. cbn. reflexivity. }
  split; [ exact H | ].
  rewrite H, lines_at_line_feed.
  change (String "010"%char ("Текст:" ++ String "010"%char textToSend))
    with ("" ++ String "010"%char ("Текст:" ++ String "010"%char textToSend)).
  rewrite lines_at_line_feed, lines_at_line_feed. reflexivity.
Qed.

(** C9.  In the textarea's key handler, Enter with shift held changes
    nothing: the result stays as it was and the modal stays as it was (the
    line break is the key's default action, which the handler leaves alone).
    Enter without shift stores the textarea's current value as the result
    and closes the modal. *)
Theorem enter_submits_unless_shift (this : InstructionModal.t) :
  InstructionModal.textarea_keypress
    {| InstructionModal.key := "Enter"; InstructionModal.shiftKey := true |} this
  = this
  /\ InstructionModal.textarea_keypress
       {| InstructionModal.key := "Enter"; InstructionModal.shiftKey := false |} this
     = {| InstructionModal.result := Some (InstructionModal.textarea_value this);
          InstructionModal.placeholder := InstructionModal.placeholder this;
          InstructionModal.textarea_value := InstructionModal.textarea_value this;
          InstructionModal.isOpen := false |}.
Proof.
  split; reflexivity.
Qed.

(** ** Every run follows one of eight paths *)

Lemma run_paths settings host (P : Completion unit * list Effect -> Prop) :
  (token settings = "" \/ agentId settings = "" ->
   P (Returned, [NoticeNew 0 "⚠ Укажи токен и Agent ID в настройках" None])) ->
  (configured settings -> getActiveViewOfType host = None ->
   P (Returned, [NoticeNew 0 "⚠ Нет активного редактора" None])) ->
  (forall activeView,
     configured settings -> getActiveViewOfType host = Some activeView ->
     modal_outcome (modalEvents host) = StaysOpen ->
     P (Suspended,
        [ModalOpen (if truthy (getSelection (editor activeView))
                    then "Что сделать с выделенным текстом?"
                    else "Введите текст для отправки")])) ->
  (forall activeView r,
     configured settings -> getActiveViewOfType host = Some activeView ->
     modal_outcome (modalEvents host) = ClosesWith r ->
     r = None \/ r = Some "" ->
     P (Returned,
        [ModalOpen (if truthy (getSelection (editor activeView))
                    then "Что сделать с выделенным текстом?"
                    else "Введите текст для отправки")])) ->
  (forall activeView v err,
     configured settings -> getActiveViewOfType host = Some activeView ->
     modal_outcome (modalEvents host) = ClosesWith (Some v) -> v <> "" ->
     network host = Rejected err ->
     P (Normal tt,
        (dispatched settings (editor activeView) v ++
         [ConsoleError err; NoticeHide 0;
          NoticeNew 1 "❌ Ошибка запроса или таймаут (30 секунд)" None;
          ClearTimeout 0])%list)) ->
  (forall activeView v response,
     configured settings -> getActiveViewOfType host = Some activeView ->
     modal_outcome (modalEvents host) = ClosesWith (Some v) -> v <> "" ->
     network host = Fulfilled response -> ok response = false ->
     P (Returned,
        (dispatched settings (editor activeView) v ++
         [NoticeHide 0;
          NoticeNew 1 ("❌ Ошибка API: " ++ Number_toString (status response))
            None;
          ClearTimeout 0])%list)) ->
  (forall activeView v response err,
     configured settings -> getActiveViewOfType host = Some activeView ->
     modal_outcome (modalEvents host) = ClosesWith (Some v) -> v <> "" ->
     network host = Fulfilled response -> ok response = true ->
     json response = Rejected err ->
     P (Normal tt,
        (dispatched settings (editor activeView) v ++
         [ConsoleError err; NoticeHide 0;
          NoticeNew 1 "❌ Ошибка запроса или таймаут (30 секунд)" None;
          ClearTimeout 0])%list)) ->
  (forall activeView v response data,
     configured settings -> getActiveViewOfType host = Some activeView ->
     modal_outcome (modalEvents host) = ClosesWith (Some v) -> v <> "" ->
     network host = Fulfilled response -> ok response = true ->
     json response = Fulfilled data ->
     P (Normal tt,
        (dispatched settings (editor activeView) v ++
         [EditorReplaceSelection
            (nullish_coalesce (optional_member data "message")
               (JString "❌ Нет ответа"));
          NoticeHide 0;
          NoticeNew 1 "✅ Ответ вставлен в заметку" (Some 3000%N);
          ClearTimeout 0])%list)) ->
  P (run settings host).
Proof.
  intros P1 P2 P3 P4 P5 P6 P7 P8.
  destruct (string_empty_dec (token settings)) as [Ht | Ht].
  { rewrite run_unconfigured by (left; exact Ht). apply P1. left; exact Ht. }
  destruct (string_empty_dec (agentId settings)) as [Ha | Ha].
  { rewrite run_unconfigured by (right; exact Ha). apply P1. right; exact Ha. }
  assert (Hc : configured settings) by (split; assumption).
  destruct (getActiveViewOfType host) as [activeView | ] eqn:Hv.
  2: { rewrite (run_no_view _ _ Hc Hv). apply P2; [ exact Hc | reflexivity ]. }
  destruct (modal_outcome (modalEvents host)) as [ | r] eqn:Hm.
  { rewrite (run_modal_stays_open _ _ Hc _ Hv Hm).
    apply P3; [ exact Hc | reflexivity | reflexivity ]. }
  assert (Hr : (r = None \/ r = Some "") \/ exists v, r = Some v /\ v <> "").
  { destruct r as [v | ]; [ | left; left; reflexivity ].
    destruct (string_empty_dec v) as [-> | Hs];
      [ left; right; reflexivity | right; exists v; split; trivial ]. }
  destruct Hr as [Hr | (v & -> & Hs)].
  { rewrite (run_modal_cancelled _ _ Hc _ Hv _ Hm Hr).
    apply (P4 activeView r); trivial. }
  destruct (network host) as [response | err] eqn:Hnet.
  2: { rewrite (run_request_rejected _ _ Hc _ Hv _ Hm Hs _ Hnet).
       apply (P5 activeView v err); trivial. }
  destruct (ok response) eqn:Hok.
  2: { rewrite (run_status_not_ok _ _ Hc _ Hv _ Hm Hs _ Hnet Hok).
       apply (P6 activeView v response); trivial. }
  destruct (json response) as [data | err] eqn:Hjson.
  - rewrite (run_reply_inserted _ _ Hc _ Hv _ Hm Hs _ _ Hnet Hok Hjson).
    apply (P8 activeView v response data); trivial.
  - rewrite (run_body_rejected _ _ Hc _ Hv _ Hm Hs _ _ Hnet Hok Hjson).
    apply (P7 activeView v response err); trivial.
Qed.

Ltac on_each_path settings host :=
  pattern (run settings host); apply run_paths; clear;
  intros; cbn [fst snd]; unfold dispatched, agent_call.

Ltac pick_effect H :=
  cbn in H;
  repeat match type of H with
         | _ \/ _ => destruct H as [H | H]
         | False => destruct H
         end;
  try discriminate H.

(** ** What a run never does *)

(** X1.  With both settings filled in and no active editor, the run creates
    one warning notice and returns; it opens no modal and sends nothing. *)
Theorem no_active_editor_warns_once settings host :
  configured settings ->
  getActiveViewOfType host = None ->
  run settings host
  = (Returned, [NoticeNew 0 "⚠ Нет активного редактора" None]).
Proof.
  intros Hc Hv. apply (run_no_view _ _ Hc Hv).
Qed.

Lemma no_active_editor_warns_once_witness :
  run sample_settings
    {| getActiveViewOfType := None; modalEvents := submits;
       network := Rejected AbortError |}
  = (Returned, [NoticeNew 0 "⚠ Нет активного редактора" None]).
Proof.
  apply no_active_editor_warns_once.
  - split; discriminate.
  - reflexivity.
Defined.

(** X2.  A request is sent only behind every guard: the token and the agent
    identifier are non-empty, an editor is active, and the modal closed with
    a non-empty result. *)
Theorem request_needs_every_guard settings host url init :
  In (Fetch url init) (snd (run settings host)) ->
  token settings <> "" /\ agentId settings <> ""
  /\ exists activeView v,
       getActiveViewOfType host = Some activeView
       /\ modal_outcome (modalEvents host) = ClosesWith (Some v)
       /\ v <> "".
Proof.
  on_each_path settings host;
    match goal with H : In _ _ |- _ => pick_effect H end;
    match goal with Hc : configured _ |- _ => destruct Hc as [Ht Ha] end;
    repeat split; trivial; eexists _, _; repeat split; eassumption.
Qed.

Lemma request_needs_every_guard_witness :
  token sample_settings <> "" /\ agentId sample_settings <> ""
  /\ exists activeView v,
       getActiveViewOfType host_hola = Some activeView
       /\ modal_outcome (modalEvents host_hola) = ClosesWith (Some v)
       /\ v <> "".
Proof.
  apply (request_needs_every_guard sample_settings host_hola
           "https://api.timeweb.cloud/api/v1/cloud-ai/agents/agent-7/call"
           {| method := "POST";
              headers := [("Authorization", "Bearer secret");
                          ("Content-Type", "application/json")];
              body := JSON_stringify
                        (JObject [("message",
                                   JString (compose_message "translate" "Hello"))]);
              signal := 0 |}).
  cbn. do 5 right. left. reflexivity.
Defined.

(** X3.  One run sends at most one request, sets at most one timer and
    replaces the selection at most once. *)
Theorem at_most_one_request_per_run settings host :
  (length (filter is_fetch (snd (run settings host))) <= 1)%nat
  /\ (length (filter is_timer (snd (run settings host))) <= 1)%nat
  /\ (length (filter is_replace (snd (run settings host))) <= 1)%nat.
Proof.
  on_each_path settings host; cbn; repeat split; repeat constructor.
Qed.

(** X4.  The selection is replaced only when the response was ok and its
    body parsed; what is inserted is then the [message] field or the
    placeholder, and by then the captured range has been restored and the
    request sent. *)
Theorem replacement_needs_ok_response settings host replacement :
  In (EditorReplaceSelection replacement) (snd (run settings host)) ->
  exists activeView response data before after,
    getActiveViewOfType host = Some activeView
    /\ network host = Fulfilled response
    /\ ok response = true
    /\ json response = Fulfilled data
    /\ replacement = nullish_coalesce (optional_member data "message")
                       (JString "❌ Нет ответа")
    /\ snd (run settings host)
       = (before ++ EditorReplaceSelection replacement :: after)%list
    /\ In (EditorSetSelection (getCursor_from (editor activeView))
                              (getCursor_to (editor activeView))) before
    /\ length (filter is_fetch before) = 1%nat.
Proof.
  intros Hin. generalize Hin. 
  pattern (run settings host) at 1 2; apply run_paths;
    intros; cbn [fst snd] in *; unfold dispatched, agent_call in *;
    match goal with H : In _ _ |- _ => pick_effect H end.
  match goal with H : EditorReplaceSelection _ = _ |- _ => injection H as <- end.
  match goal with
  | Hv : getActiveViewOfType host = Some ?a, Hn : network host = Fulfilled ?r,
    Hj : json ?r = Fulfilled ?d |- _ =>
      exists a, r, d
  end.
  eexists _, _. 
  repeat match goal with |- _ /\ _ => split end; try eassumption; try reflexivity.
  cbn. right; left; reflexivity.
Qed.

Lemma replacement_needs_ok_response_witness :
  exists activeView response data before after,
    getActiveViewOfType host_hola = Some activeView
    /\ network host_hola = Fulfilled response
    /\ ok response = true
    /\ json response = Fulfilled data
    /\ JString "Hola" = nullish_coalesce (optional_member data "message")
                          (JString "❌ Нет ответа")
    /\ snd (run sample_settings host_hola)
       = (before ++ EditorReplaceSelection (JString "Hola") :: after)%list
    /\ In (EditorSetSelection (getCursor_from (editor activeView))
                              (getCursor_to (editor activeView))) before
    /\ length (filter is_fetch before) = 1%nat.
Proof.
  apply (replacement_needs_ok_response sample_settings host_hola (JString "Hola")).
  cbn. do 6 right. left. reflexivity.
Defined.

(** X5.  A timer a run has set is the 30000 ms one, and clearing it is the
    last thing the run does, whichever way the request went. *)
Theorem timer_is_always_cleared settings host timer controller ms :
  In (SetTimeout timer controller ms) (snd (run settings host)) ->
  ms = 30000%N
  /\ exists before,
       snd (run settings host) = (before ++ [ClearTimeout timer])%list
       /\ In (SetTimeout timer controller ms) before.
Proof.
  on_each_path settings host;
    match goal with H : In _ _ |- _ => pick_effect H end;
    match goal with H : SetTimeout _ _ _ = _ |- _ => injection H as <- <- <- end;
    (split; [ reflexivity | ]).
  - eexists (_ :: _ :: _ :: _ :: _ :: _ :: _ :: _ :: [_]). split;
      [ reflexivity | cbn; do 4 right; left; reflexivity ].
  - eexists (_ :: _ :: _ :: _ :: _ :: _ :: _ :: [_]). split;
      [ reflexivity | cbn; do 4 right; left; reflexivity ].
  - eexists (_ :: _ :: _ :: _ :: _ :: _ :: _ :: _ :: [_]). split;
      [ reflexivity | cbn; do 4 right; left; reflexivity ].
  - eexists (_ :: _ :: _ :: _ :: _ :: _ :: _ :: _ :: [_]). split;
      [ reflexivity | cbn; do 4 right; left; reflexivity ].
Qed.

Lemma timer_is_always_cleared_witness :
  30000%N = 30000%N
  /\ exists before,
       snd (run sample_settings host_timeout) = (before ++ [ClearTimeout 0])%list
       /\ In (SetTimeout 0 0 30000%N) before.
Proof.
  apply (timer_is_always_cleared sample_settings host_timeout 0 0 30000%N).
  cbn. do 4 right. left. reflexivity.
Defined.

(** X6.  When a run is over, either it did nothing but open the modal, or
    exactly one notice is left up, and it is not the persistent in-progress
    one: every other way out has told the user something and has taken the
    in-progress notice down. *)
Theorem one_notice_is_left_up settings host :
  (exists placeholder, snd (run settings host) = [ModalOpen placeholder])
  \/ (exists notice text duration,
        on_screen (snd (run settings host)) = [(notice, text, duration)]
        /\ duration <> Some 0%N).
Proof.
  on_each_path settings host;
    try (left; eexists; reflexivity);
    right; eexists _, _, _; (split; [ reflexivity | discriminate ]).
Qed.

(** X7.  The placeholder of the modal a run opens follows the selection:
    one wording when text is selected, another when nothing is. *)
Theorem placeholder_follows_selection settings host placeholder :
  In (ModalOpen placeholder) (snd (run settings host)) ->
  exists activeView,
    getActiveViewOfType host = Some activeView
    /\ (getSelection (editor activeView) <> "" ->
        placeholder = "Что сделать с выделенным текстом?")
    /\ (getSelection (editor activeView) = "" ->
        placeholder = "Введите текст для отправки").
Proof.
  on_each_path settings host;
    match goal with H : In _ _ |- _ => pick_effect H end;
    match goal with H : ModalOpen _ = _ |- _ => injection H as <- end;
    match goal with
    | Hv : getActiveViewOfType _ = Some ?a |- _ => exists a
    end;
    (split; [ assumption | ]);
    (split; intros Hsel;
     [ rewrite (truthy_nonempty _ Hsel) | rewrite Hsel ]; reflexivity).
Qed.

Lemma placeholder_follows_selection_witness :
  exists activeView,
    getActiveViewOfType host_typed = Some activeView
    /\ (getSelection (editor activeView) <> "" ->
        "Введите текст для отправки" = "Что сделать с выделенным текстом?")
    /\ (getSelection (editor activeView) = "" ->
        "Введите текст для отправки" = "Введите текст для отправки").
Proof.
  apply (placeholder_follows_selection sample_settings host_typed
           "Введите текст для отправки").
  cbn. left. reflexivity.
Defined.

(** X8.  A run never ends with an exception: a rejected request and a body
    that cannot be read are both caught. *)
Theorem run_never_throws settings host err :
  fst (run settings host) <> Thrown err.
Proof.
  on_each_path settings host; discriminate.
Qed.

(** X9.  A run stays suspended exactly when, past the guards, the modal is
    never closed; all it has done then is open the modal. *)
Theorem run_waits_only_for_the_modal settings host :
  (fst (run settings host) = Suspended
   <-> configured settings
       /\ getActiveViewOfType host <> None
       /\ modal_outcome (modalEvents host) = StaysOpen)
  /\ (fst (run settings host) = Suspended ->
      exists placeholder, snd (run settings host) = [ModalOpen placeholder]).
Proof.
  on_each_path settings host; (split; [ split | ]); try discriminate;
    try (intros _; eexists; reflexivity);
    try (intros _; split; [ assumption | split; [ congruence | assumption ] ]);
    intros (Hc & Hv & Hm); try congruence.
  destruct Hc as [Ht Ha].
  match goal with H : _ \/ _ |- _ => destruct H; contradiction end.
Qed.

(** ** Sessions of the modal *)

Lemma interact_closed m events :
  InstructionModal.isOpen m = false -> InstructionModal.interact m events = m.
Proof.
  unfold InstructionModal.interact. intros Hclosed.
  induction events as [ | ev events IH ]; cbn; [ reflexivity | ].
  unfold InstructionModal.dispatch at 2. rewrite Hclosed. exact IH.
Qed.

Lemma interact_app m events1 events2 :
  InstructionModal.interact m (events1 ++ events2)
  = InstructionModal.interact (InstructionModal.interact m events1) events2.
Proof. apply fold_left_app. Qed.

Lemma interact_while_typing events : forall m,
  InstructionModal.isOpen m = true ->
  Forall (fun ev => closes ev = false) events ->
  InstructionModal.interact m events
  = {| InstructionModal.result := InstructionModal.result m;
       InstructionModal.placeholder := InstructionModal.placeholder m;
       InstructionModal.textarea_value :=
         typed events (InstructionModal.textarea_value m);
       InstructionModal.isOpen := true |}.
Proof.
  unfold InstructionModal.interact, typed.
  induction events as [ | ev events IH ]; intros m Hopen Hall; cbn.
  - destruct m; cbn in *; subst; reflexivity.
  - inversion Hall as [ | ? ? Hev Hrest ]; subst.
    rewrite IH; [ | | exact Hrest ].
    + unfold InstructionModal.dispatch. rewrite Hopen.
      destruct ev as [v | e | | | ]; cbn in Hev |- *; try discriminate;
        try reflexivity.
      unfold InstructionModal.textarea_keypress.
      destruct (String.eqb (InstructionModal.key e) "Enter"),
               (InstructionModal.shiftKey e); cbn in Hev |- *;
        try discriminate; reflexivity.
    + unfold InstructionModal.dispatch. rewrite Hopen.
      destruct ev as [v | e | | | ]; cbn in Hev |- *; try discriminate;
        try assumption; try reflexivity.
      unfold InstructionModal.textarea_keypress.
      destruct (String.eqb (InstructionModal.key e) "Enter"),
               (InstructionModal.shiftKey e); cbn in Hev |- *;
        try discriminate; assumption.
Qed.

Lemma dispatch_closing m ev :
  InstructionModal.isOpen m = true ->
  InstructionModal.result m = None ->
  closes ev = true ->
  InstructionModal.dispatch m ev
  = {| InstructionModal.result :=
         closing_result ev (InstructionModal.textarea_value m);
       InstructionModal.placeholder := InstructionModal.placeholder m;
       InstructionModal.textarea_value := InstructionModal.textarea_value m;
       InstructionModal.isOpen := false |}.
Proof.
  intros Hopen Hres Hev. unfold InstructionModal.dispatch. rewrite Hopen.
  destruct ev as [v | e | | | ]; cbn in Hev |- *; try discriminate;
    try reflexivity.
  - unfold InstructionModal.textarea_keypress.
    destruct (String.eqb (InstructionModal.key e) "Enter"),
             (InstructionModal.shiftKey e); cbn in Hev |- *;
      try discriminate; reflexivity.
  - unfold InstructionModal.close. rewrite Hres. reflexivity.
Qed.

Lemma modal_outcome_typing events :
  Forall (fun ev => closes ev = false) events ->
  modal_outcome events = StaysOpen.
Proof.
  intros Hall. unfold modal_outcome.
  rewrite (interact_while_typing events
             (InstructionModal.open (InstructionModal.new "")) eq_refl Hall).
  reflexivity.
Qed.

Lemma modal_outcome_closing before ev after :
  Forall (fun e => closes e = false) before ->
  closes ev = true ->
  modal_outcome (before ++ ev :: after)
  = ClosesWith (closing_result ev (typed before "")).
Proof.
  intros Hall Hev. unfold modal_outcome.
  rewrite interact_app,
    (interact_while_typing before
       (InstructionModal.open (InstructionModal.new "")) eq_refl Hall).
  change (InstructionModal.interact ?m (ev :: after))
    with (InstructionModal.interact (InstructionModal.dispatch m ev) after).
  rewrite dispatch_closing by (reflexivity || exact Hev).
  rewrite interact_closed by reflexivity. reflexivity.
Qed.

(** X10.  Typing, Shift+Enter and keys other than Enter never close the
    modal, however many of them there are; the event that does close it (a
    button, a plain Enter, or the host) leaves the result the callback then
    reads: the last value typed for the send button and Enter, [null] for
    the cancel button and for the host. *)
Theorem first_closing_event_decides before :
  Forall (fun ev => closes ev = false) before ->
  modal_outcome before = StaysOpen
  /\ forall ev,
       closes ev = true ->
       modal_outcome (before ++ [ev])
       = ClosesWith (closing_result ev (typed before "")).
Proof.
  intros Hall. split.
  - apply modal_outcome_typing, Hall.
  - intros ev Hev. apply modal_outcome_closing; assumption.
Qed.

Lemma first_closing_event_decides_witness :
  modal_outcome [InstructionModal.input "draft"; Enter true;
                 InstructionModal.input "final"] = StaysOpen
  /\ modal_outcome ([InstructionModal.input "draft"; Enter true;
                     InstructionModal.input "final"]
                    ++ [InstructionModal.click_sendBtn])
     = ClosesWith (Some "final").
Proof.
  destruct (first_closing_event_decides
              [InstructionModal.input "draft"; Enter true;
               InstructionModal.input "final"]) as [Hopen Hclose].
  - repeat constructor.
  - split; [ exact Hopen | ].
    apply (Hclose InstructionModal.click_sendBtn). reflexivity.
Defined.

(** X11.  While the modal is open its result is still [null]: the result is
    only ever set by the event that closes the modal. *)
Theorem open_modal_has_no_result placeholder events :
  InstructionModal.isOpen
    (InstructionModal.interact
       (InstructionModal.open (InstructionModal.new placeholder)) events) = true ->
  InstructionModal.result
    (InstructionModal.interact
       (InstructionModal.open (InstructionModal.new placeholder)) events) = None.
Proof.
  generalize (eq_refl :
    InstructionModal.result
      (InstructionModal.open (InstructionModal.new placeholder)) = None).
  generalize (InstructionModal.open (InstructionModal.new placeholder)).
  unfold InstructionModal.interact.
  induction events as [ | ev events IH ]; intros m Hres; cbn.
  - intros _. exact Hres.
  - destruct (InstructionModal.isOpen (InstructionModal.dispatch m ev)) eqn:Hopen.
    + apply IH. revert Hopen. unfold InstructionModal.dispatch.
      destruct (InstructionModal.isOpen m); [ | intros _; exact Hres ].
      destruct ev as [v | e | | | ]; cbn; try discriminate;
        try (intros _; exact Hres).
      unfold InstructionModal.textarea_keypress.
      destruct (String.eqb (InstructionModal.key e) "Enter"),
               (InstructionModal.shiftKey e); cbn; try discriminate;
        intros _; exact Hres.
    + fold (InstructionModal.interact (InstructionModal.dispatch m ev) events).
      rewrite interact_closed by exact Hopen. rewrite Hopen. discriminate.
Qed.

Lemma open_modal_has_no_result_witness :
  InstructionModal.result
    (InstructionModal.interact
       (InstructionModal.open (InstructionModal.new "hint"))
       [InstructionModal.input "draft"; Enter true]) = None.
Proof.
  apply (open_modal_has_no_result "hint"
           [InstructionModal.input "draft"; Enter true]).
  reflexivity.
Defined.

(** ** From the keyboard to the wire *)

(** X12.  Cancelling, dismissing, or submitting while the textarea is empty
    sends nothing, whatever was typed and deleted before and whatever comes
    after: the run has opened the modal and done nothing else. *)
Theorem nothing_typed_nothing_sent settings host activeView before ev after :
  configured settings ->
  getActiveViewOfType host = Some activeView ->
  modalEvents host = (before ++ ev :: after)%list ->
  Forall (fun e => closes e = false) before ->
  closes ev = true ->
  ev = InstructionModal.click_cancelBtn \/ ev = InstructionModal.dismiss
  \/ typed before "" = "" ->
  fst (run settings host) = Returned
  /\ exists placeholder, snd (run settings host) = [ModalOpen placeholder].
Proof.
  intros Hc Hv Hevents Hall Hev Hempty.
  assert (Hm : modal_outcome (modalEvents host)
               = ClosesWith (closing_result ev (typed before ""))).
  { rewrite Hevents. apply modal_outcome_closing; assumption. }
  rewrite (run_modal_cancelled _ _ Hc _ Hv _ Hm).
  - split; [ reflexivity | eexists; reflexivity ].
  - destruct Hempty as [-> | [-> | ->]];
      [ left; reflexivity | left; reflexivity | ].
    destruct ev; cbn; (left; reflexivity) || (right; reflexivity).
Qed.

Lemma nothing_typed_nothing_sent_witness :
  fst (run sample_settings
         (sample_host view_with_selection
            ([InstructionModal.input "x"; InstructionModal.input ""]
             ++ Enter false :: [InstructionModal.input "late"])
            (replies JNull))) = Returned
  /\ exists placeholder,
       snd (run sample_settings
              (sample_host view_with_selection
                 ([InstructionModal.input "x"; InstructionModal.input ""]
                  ++ Enter false :: [InstructionModal.input "late"])
                 (replies JNull))) = [ModalOpen placeholder].
Proof.
  apply (nothing_typed_nothing_sent sample_settings _ view_with_selection
           [InstructionModal.input "x"; InstructionModal.input ""]
           (Enter false) [InstructionModal.input "late"]).
  - split; discriminate.
  - reflexivity.
  - reflexivity.
  - repeat constructor.
  - reflexivity.
  - right; right; reflexivity.
Defined.

(** X13.  What goes into the request is the last value typed before the
    send button or a plain Enter: with a selection it stands after the
    instruction label and the selection after the text label; without one
    it stands after the text label, under the default instruction.  Events
    after the submission play no part. *)
Theorem last_typed_value_is_sent settings host activeView before ev after :
  configured settings ->
  getActiveViewOfType host = Some activeView ->
  modalEvents host = (before ++ ev :: after)%list ->
  Forall (fun e => closes e = false) before ->
  ev = InstructionModal.click_sendBtn \/ ev = Enter false ->
  typed before "" <> "" ->
  request_bodies (snd (run settings host))
  = [JSON_stringify
       (JObject
          [("message",
            JString
              (if truthy (getSelection (editor activeView))
               then "Инструкция: " ++ typed before ""
                      ++ String "010"%char
                           (String "010"%char
                              ("Текст:"
                                 ++ String "010"%char
                                      (getSelection (editor activeView))))
               else "Инструкция: " ++ "Обработай текст"
                      ++ String "010"%char
                           (String "010"%char
                              ("Текст:"
                                 ++ String "010"%char (typed before "")))))])].
Proof.
  intros Hc Hv Hevents Hall Hev Htyped.
  assert (Hm : modal_outcome (modalEvents host)
               = ClosesWith (Some (typed before ""))).
  { rewrite Hevents.
    rewrite modal_outcome_closing;
      [ | exact Hall | destruct Hev as [-> | ->]; reflexivity ].
    destruct Hev as [-> | ->]; reflexivity. }
  destruct (run_after_dispatch _ _ _ _ Hc Hv Hm Htyped)
    as (completion & tail & -> & Hfetch & _).
  cbn [snd]. rewrite request_bodies_app, (request_bodies_no_fetch _ Hfetch).
  unfold dispatched, payload.
  destruct (truthy (getSelection (editor activeView))); reflexivity.
Qed.

Lemma last_typed_value_is_sent_witness :
  request_bodies
    (snd (run sample_settings
            (sample_host view_without_selection
               ([InstructionModal.input "draft"; Enter true;
                 InstructionModal.input "final"]
                ++ Enter false :: [InstructionModal.click_cancelBtn])
               (Rejected AbortError))))
  = [JSON_stringify
       (JObject
          [("message",
            JString
              ("Инструкция: Обработай текст"
                 ++ String "010"%char
                      (String "010"%char
                         ("Текст:" ++ String "010"%char "final"))))])].
Proof.
  apply (last_typed_value_is_sent sample_settings _ view_without_selection
           [InstructionModal.input "draft"; Enter true;
            InstructionModal.input "final"]
           (Enter false) [InstructionModal.click_cancelBtn]).
  - split; discriminate.
  - reflexivity.
  - reflexivity.
  - repeat constructor.
  - right; reflexivity.
  - discriminate.
Defined.

(** ** The message format *)

Lemma append_assoc (a b c : string) : (a ++ b) ++ c = a ++ (b ++ c).
Proof. induction a as [ | x a IH ]; cbn; [ | rewrite IH ]; reflexivity. Qed.

(** X14.  The template literal escapes nothing: an instruction that itself
    contains the text label yields the same message as a shorter instruction
    with a longer text, so the two blocks cannot always be told apart. *)
Theorem message_blocks_are_not_delimited instruction middle text :
  compose_message (instruction ++ text_label ++ middle) text
  = compose_message instruction (middle ++ text_label ++ text).
Proof.
  unfold compose_message, text_label.
  repeat rewrite append_assoc. reflexivity.
Qed.

(** ** The settings store *)

Lemma own_property_set_property key key' value target :
  own_property key (set_property key' value target)
  = if String.eqb key' key
    then match own_property key target with
         | Some _ => Some value
         | None => if String.eqb key "__proto__" then None else Some value
         end
    else own_property key target.
Proof.
  induction target as [ | [k v] rest IH ]; cbn.
  - destruct (String.eqb_spec key' key) as [-> | Hne].
    + destruct (String.eqb key "__proto__"); cbn;
        [ | rewrite String.eqb_refl ]; reflexivity.
    + destruct (String.eqb key' "__proto__"); cbn; [ reflexivity | ].
      destruct (String.eqb_spec key' key); [ contradiction | reflexivity ].
  - destruct (String.eqb_spec k key') as [-> | Hk]; cbn.
    + destruct (String.eqb key' key); reflexivity.
    + rewrite IH.
      destruct (String.eqb_spec k key) as [-> | Hkey]; [ | reflexivity ].
      destruct (String.eqb_spec key' key) as [-> | _];
        [ contradiction | reflexivity ].
Qed.

(** What reading [key] gives once [source] has been assigned onto an object
    on which it gave [before]. *)
Lemma own_property_assign_keys key source keys : forall target,
  own_property key
    (fold_left
       (fun t k =>
          match own_property k source with
          | Some v => set_property k v t
          | None => t
          end) keys target)
  = if existsb (String.eqb key) keys
    then match own_property key source with
         | Some v =>
             match own_property key target with
             | Some _ => Some v
             | None => if String.eqb key "__proto__" then None else Some v
             end
         | None => own_property key target
         end
    else own_property key target.
Proof.
  induction keys as [ | k keys IH ]; intros target; cbn; [ reflexivity | ].
  rewrite IH.
  destruct (String.eqb_spec key k) as [<- | Hne]; cbn.
  - destruct (own_property key source) as [v | ] eqn:Hv.
    + rewrite own_property_set_property, String.eqb_refl.
      destruct (own_property key target), (String.eqb key "__proto__"),
               (existsb (String.eqb key) keys); reflexivity.
    + destruct (existsb (String.eqb key) keys); reflexivity.
  - destruct (own_property k source) as [v | ]; [ | reflexivity ].
    rewrite own_property_set_property.
    destruct (String.eqb_spec k key) as [-> | _]; [ contradiction | ].
    reflexivity.
Qed.

Lemma own_property_in_keys key source v :
  own_property key source = Some v ->
  existsb (String.eqb key) (map fst source) = true.
Proof.
  induction source as [ | [k x] rest IH ]; cbn; [ discriminate | ].
  destruct (String.eqb_spec k key) as [-> | Hne].
  - intros _. rewrite String.eqb_refl. reflexivity.
  - intros H. rewrite (IH H). apply Bool.orb_true_r.
Qed.

Lemma own_property_assign_from key target source :
  own_property key (assign_from target source)
  = match own_property key source with
    | Some v =>
        match own_property key target with
        | Some _ => Some v
        | None => if String.eqb key "__proto__" then None else Some v
        end
    | None => own_property key target
    end.
Proof.
  unfold assign_from. rewrite own_property_assign_keys.
  destruct (own_property key source) as [v | ] eqn:Hv.
  - rewrite (own_property_in_keys _ _ _ Hv). reflexivity.
  - destruct (existsb _ _); reflexivity.
Qed.

Lemma own_property_defaults key :
  own_property key (assign_from [] (settings_object DEFAULT_SETTINGS))
  = own_property key (settings_object DEFAULT_SETTINGS).
Proof.
  rewrite own_property_assign_from.
  destruct (own_property key (settings_object DEFAULT_SETTINGS)) eqn:Hd;
    [ | reflexivity ].
  cbn [own_property].
  destruct (String.eqb_spec key "__proto__") as [-> | _]; [ | reflexivity ].
  vm_compute in Hd. discriminate Hd.
Qed.

Lemma own_property_loadSettings key this :
  own_property key (TimewebPlugin.settings (TimewebPlugin.loadSettings this))
  = if String.eqb key "__proto__" then None
    else match saved_property this key with
         | Some v => Some v
         | None => own_property key (settings_object DEFAULT_SETTINGS)
         end.
Proof.
  unfold TimewebPlugin.loadSettings, Object_assign, saved_property.
  cbn [TimewebPlugin.settings fold_left].
  destruct (TimewebPlugin.data this) as [stored | ].
  - rewrite own_property_assign_from, own_property_defaults.
    destruct (String.eqb_spec key "__proto__") as [-> | Hne].
    + destruct (own_property "__proto__" stored); reflexivity.
    + destruct (own_property key stored); [ | reflexivity ].
      destruct (own_property key (settings_object DEFAULT_SETTINGS));
        reflexivity.
  - rewrite own_property_defaults.
    destruct (String.eqb_spec key "__proto__") as [-> | Hne]; reflexivity.
Qed.

(** X15.  Loading merges what was saved over the defaults, own property
    by own property: a saved property wins, a missing one takes its
    default, so [token] and [agentId] are always there after a load, and
    with nothing saved the settings are the defaults.  A saved [__proto__]
    never becomes an own property of the settings. *)
Theorem load_merges_over_defaults this key :
  own_property key (TimewebPlugin.settings (TimewebPlugin.loadSettings this))
  = (if String.eqb key "__proto__" then None
     else match saved_property this key with
          | Some v => Some v
          | None => own_property key (settings_object DEFAULT_SETTINGS)
          end)
  /\ own_property "token"
       (TimewebPlugin.settings (TimewebPlugin.loadSettings this)) <> None
  /\ own_property "agentId"
       (TimewebPlugin.settings (TimewebPlugin.loadSettings this)) <> None
  /\ (TimewebPlugin.data this = None ->
      TimewebPlugin.settings (TimewebPlugin.loadSettings this)
      = settings_object DEFAULT_SETTINGS).
Proof.
  split; [ apply own_property_loadSettings | ].
  split; [ | split ].
  - rewrite own_property_loadSettings. cbn.
    destruct (saved_property this "token"); discriminate.
  - rewrite own_property_loadSettings. cbn.
    destruct (saved_property this "agentId"); discriminate.
  - unfold TimewebPlugin.loadSettings. intros ->. reflexivity.
Qed.

(** X16.  Saving and loading again changes no own property of settings
    that came from a load: on what the plugin reads and the host saves, the
    round trip through the store is the identity. *)
Theorem save_then_load_keeps_settings this key :
  own_property key
    (TimewebPlugin.settings
       (TimewebPlugin.loadSettings
          (TimewebPlugin.saveSettings (TimewebPlugin.loadSettings this))))
  = own_property key (TimewebPlugin.settings (TimewebPlugin.loadSettings this)).
Proof.
  rewrite (own_property_loadSettings key
             (TimewebPlugin.saveSettings (TimewebPlugin.loadSettings this))).
  unfold saved_property at 1.
  cbn [TimewebPlugin.saveSettings TimewebPlugin.data].
  rewrite own_property_loadSettings.
  destruct (String.eqb key "__proto__"); [ reflexivity | ].
  destruct (saved_property this key); [ reflexivity | ].
  destruct (own_property key (settings_object DEFAULT_SETTINGS)); reflexivity.
Qed.

(** X17.  An edit in the settings tab is saved at once and survives a
    reload: after both fields were edited, in either order, a load gives the
    two values typed last, as a settings record with these two strings. *)
Theorem edits_survive_reload plugin t a :
  let edited1 :=
    TimewebSettingTab.agentId_onChange a
      (TimewebSettingTab.token_onChange t plugin) in
  let edited2 :=
    TimewebSettingTab.token_onChange t
      (TimewebSettingTab.agentId_onChange a plugin) in
  TimewebPlugin.data edited1 = Some (TimewebPlugin.settings edited1)
  /\ as_settings (TimewebPlugin.settings (TimewebPlugin.loadSettings edited1))
     = Some {| token := t; agentId := a |}
  /\ as_settings (TimewebPlugin.settings (TimewebPlugin.loadSettings edited2))
     = Some {| token := t; agentId := a |}.
Proof.
  cbn zeta. split; [ reflexivity | ].
  unfold as_settings. rewrite !own_property_loadSettings.
  unfold saved_property.
  cbn [TimewebSettingTab.agentId_onChange TimewebSettingTab.token_onChange
       TimewebPlugin.saveSettings TimewebPlugin.data TimewebPlugin.settings].
  rewrite !own_property_set_property.
  change (String.eqb "token" "__proto__") with false.
  change (String.eqb "agentId" "__proto__") with false.
  change (String.eqb "token" "token") with true.
  change (String.eqb "agentId" "agentId") with true.
  change (String.eqb "token" "agentId") with false.
  change (String.eqb "agentId" "token") with false.
  cbv iota.
  destruct (own_property "token" (TimewebPlugin.settings plugin)),
           (own_property "agentId" (TimewebPlugin.settings plugin));
    split; reflexivity.
Qed.

(** X18.  Editing one field leaves every other property of the settings as
    it was. *)
Theorem edit_touches_one_field plugin value key :
  (key <> "token" ->
   own_property key
     (TimewebPlugin.settings (TimewebSettingTab.token_onChange value plugin))
   = own_property key (TimewebPlugin.settings plugin))
  /\ (key <> "agentId" ->
      own_property key
        (TimewebPlugin.settings (TimewebSettingTab.agentId_onChange value plugin))
      = own_property key (TimewebPlugin.settings plugin)).
Proof.
  split; intros Hne; cbn; rewrite own_property_set_property.
  - destruct (String.eqb_spec "token" key) as [<- | _];
      [ exfalso; apply Hne; reflexivity | reflexivity ].
  - destruct (String.eqb_spec "agentId" key) as [<- | _];
      [ exfalso; apply Hne; reflexivity | reflexivity ].
Qed.

(** X19.  Until both fields have been saved non-empty, the command only
    warns: if the saved data lacks [token] or [agentId], or holds the empty
    string for one of them, a run with the loaded settings creates the
    warning notice and stops there. *)
Theorem unsaved_field_means_warning this settings host :
  as_settings (TimewebPlugin.settings (TimewebPlugin.loadSettings this))
  = Some settings ->
  (exists key,
     (key = "token" \/ key = "agentId")
     /\ (saved_property this key = None
         \/ saved_property this key = Some (JString ""))) ->
  run settings host
  = (Returned, [NoticeNew 0 "⚠ Укажи токен и Agent ID в настройках" None]).
Proof.
  unfold as_settings. rewrite !own_property_loadSettings.
  change (String.eqb "token" "__proto__") with false.
  change (String.eqb "agentId" "__proto__") with false.
  cbv iota.
  intros Hs (key & Hkey & Hstored).
  apply run_unconfigured.
  destruct Hkey as [-> | ->]; [ left | right ];
    destruct Hstored as [H | H]; rewrite H in Hs; cbn in Hs.
  1, 2: destruct (saved_property this "agentId") as [[] | ];
    inversion Hs; reflexivity.
  1, 2: destruct (saved_property this "token") as [[] | ];
    inversion Hs; reflexivity.
Qed.

Lemma unsaved_field_means_warning_witness :
  run DEFAULT_SETTINGS host_hola
  = (Returned, [NoticeNew 0 "⚠ Укажи токен и Agent ID в настройках" None]).
Proof.
  apply (unsaved_field_means_warning fresh_install DEFAULT_SETTINGS host_hola).
  - reflexivity.
  - exists "token". split; [ left; reflexivity | left; reflexivity ].
Defined.
